(** * Snapcraft build-environment providers: [snapcraft/providers/_provider.py]

    A shallow embedding of the [Provider] abstract base class and the
    properties of its concrete, backend-independent methods.

    Data model.
    - A Python [str] is a Rocq [string]; every character is read as the
      code point with that number (code points below 256).
    - [Optional[str]] is [option string]; [Dict[str, Optional[str]]] is
      [gmap string (option string)]; [os.environ] is [gmap string string].
    - A [pathlib.Path] is the string of the path; the file system maps a
      path to what [stat()] does there, return a [stat_result] or raise an
      [OSError]; a path with no entry does not exist.
    - Methods with effects run in a state-and-exception monad over a
      [World]: the file system, the backend's state, and the record of the
      calls made (as a recording fake backend would keep it). *)

From stdpp Require Import gmap strings pretty list fin_maps.
From Stdlib Require Import Ascii String.

Local Open Scope string_scope.

(** ** Python builtins used by the module *)

Module Py.

(** Truth value of an [Optional[str]]: [None] and [""] are false. *)
Definition truthy (o : option string) : bool :=
  match o with
  | None => false
  | Some "" => false
  | Some _ => true
  end.

(** [sep.join(items)]. *)
Definition join (sep : string) (items : list string) : string :=
  String.concat sep items.

(** [str(n)] for a non-negative [int]: its decimal digits. *)
Definition str_of_int (n : N) : string := pretty n.

(** [x in items] for a list of strings. *)
Definition contains (items : list string) (x : string) : bool :=
  bool_decide (x ∈ items).

(** *** [repr] of a [str]

    The surrounding quote is the single quote, unless the string has a
    single quote and no double quote, when it is the double quote.
    The quote and the backslash are escaped with a backslash; tab, newline
    and carriage return have their letter escapes; the other non-printable
    characters are written [\xhh].  Below 256 the non-printable code points
    are the controls [0x00-0x1f], [0x7f-0x9f], the no-break space [0xa0]
    and the soft hyphen [0xad]. *)

Definition hex_digit (d : N) : ascii :=
  match d with
  | 0 => "0" | 1 => "1" | 2 => "2" | 3 => "3" | 4 => "4" | 5 => "5"
  | 6 => "6" | 7 => "7" | 8 => "8" | 9 => "9" | 10 => "a" | 11 => "b"
  | 12 => "c" | 13 => "d" | 14 => "e" | _ => "f"
  end%char%N.

Definition hex_escape (c : ascii) : string :=
  let n := N_of_ascii c in
  String "\" (String "x"
    (String (hex_digit (n `div` 16)) (String (hex_digit (n `mod` 16)) ""))).

Definition isprintable (c : ascii) : bool :=
  let n := N_of_ascii c in
  if (n <? 32)%N then false
  else if (n <? 127)%N then true
  else if (n <=? 160)%N then false
  else negb (n =? 173)%N.

Fixpoint has_char (q : ascii) (s : string) : bool :=
  match s with
  | "" => false
  | String c s' => if Ascii.eqb c q then true else has_char q s'
  end.

Definition squote : ascii := "'"%char.
Definition dquote : ascii := ascii_of_N 34.
Definition backslash : ascii := "\"%char.

Definition repr_quote (s : string) : ascii :=
  if has_char squote s && negb (has_char dquote s) then dquote else squote.

Definition repr_char (quote c : ascii) : string :=
  if Ascii.eqb c quote || Ascii.eqb c backslash then String backslash (String c "")
  else if Ascii.eqb c (ascii_of_N 9) then String backslash "t"
  else if Ascii.eqb c (ascii_of_N 10) then String backslash "n"
  else if Ascii.eqb c (ascii_of_N 13) then String backslash "r"
  else if isprintable c then String c ""
  else hex_escape c.

Fixpoint repr_body (quote : ascii) (s : string) : string :=
  match s with
  | "" => ""
  | String c s' => repr_char quote c +:+ repr_body quote s'
  end.

Definition repr (s : string) : string :=
  let quote := repr_quote s in
  String quote (repr_body quote s +:+ String quote "").

End Py.

(** ** The pure static and class methods *)

(** [os.stat_result], reduced to the field the module reads. *)
Record stat_result := { st_ino : N }.

(** The exceptions that can cross the module. The first four are the
    [OSError]s of a failed [stat()]; [KeyboardInterrupt] and [GeneratorExit]
    are how a scoped block is cancelled. *)
Inductive Exception :=
| FileNotFoundError (path : string)
| NotADirectoryError (path : string)
| PermissionError (path : string)
| OSError (errno : N) (path : string)
| ProviderError (message : string)
| RuntimeError (message : string)
| KeyboardInterrupt
| GeneratorExit.

(** [path.stat()]: what the file system has for the path, and
    [FileNotFoundError] for a path that does not exist. *)
Definition stat (fs : gmap string (Exception + stat_result)) (path : string)
  : Exception + stat_result :=
  match fs !! path with
  | Some found => found
  | None => inl (FileNotFoundError path)
  end.

(** [Provider.get_instance_name]; whatever [project_path.stat()] raises
    goes through. *)
Definition get_instance_name (fs : gmap string (Exception + stat_result))
    (project_name project_path build_on build_for : string)
  : Exception + string :=
  match stat fs project_path with
  | inl e => inl e
  | inr st =>
      inr (Py.join "-"
             [ "snapcraft"; project_name; "on"; build_on; "for"; build_for;
               Py.str_of_int (st_ino st) ])
  end.

(** [Provider.is_base_available]. *)
Definition supported_bases : list string := ["ubuntu:18.04"; "ubuntu:20.04"].

Definition is_base_available (base : string) : bool * option string :=
  if negb (Py.contains supported_bases base) then
    (false,
     Some ("Base " +:+ Py.repr base +:+
           " is not supported (must be 'ubuntu:18.04' or 'ubuntu:20.04')"))
  else (true, None).

(** [Provider.get_command_environment]. The default environment of
    [bases.buildd.default_command_environment()] belongs to the
    craft-providers library and is a parameter; [environ] is [os.environ]. *)
Definition passthrough_keys : list string :=
  [ "http_proxy"; "https_proxy"; "no_proxy";
    "SNAPCRAFT_ENABLE_EXPERIMENTAL_EXTENSIONS";
    "SNAPCRAFT_BUILD_FOR"; "SNAPCRAFT_BUILD_INFO"; "SNAPCRAFT_IMAGE_INFO" ].

Definition pass_through (environ : gmap string string)
    (env : gmap string (option string)) (env_key : string)
  : gmap string (option string) :=
  match environ !! env_key with
  | Some v => <[env_key := Some v]> env
  | None => env
  end.

Definition get_command_environment
    (default_command_environment : gmap string (option string))
    (environ : gmap string string)
    (http_proxy https_proxy : option string)
  : gmap string (option string) :=
  let env := default_command_environment in
  let env := <["SNAPCRAFT_MANAGED_MODE" := Some "1"]> env in
  let env := foldl (pass_through environ) env passthrough_keys in
  let env := if Py.truthy http_proxy
             then <["http_proxy" := http_proxy]> env else env in
  let env := if Py.truthy https_proxy
             then <["https_proxy" := https_proxy]> env else env in
  env.

(** ** The world the methods with effects run in *)

(** The calls a recording backend sees, in the order they are made. [H] is
    the type of the [Executor] handle that [create_environment] returns. *)
Inductive Call (H : Type) :=
| CallLogDebug (message : string)
| CallIsProviderAvailable
| CallStat (path : string)
| CallCreateEnvironment (instance_name : string)
| CallExists (environment : H)
| CallDelete (environment : H)
| CallLaunch (environment : H) (base : string)
| CallMount (environment : H) (host_source target : string)
| CallUnmountAll (environment : H)
| CallStop (environment : H).

Arguments CallLogDebug {H} message.
Arguments CallIsProviderAvailable {H}.
Arguments CallStat {H} path.
Arguments CallCreateEnvironment {H} instance_name.
Arguments CallExists {H} environment.
Arguments CallDelete {H} environment.
Arguments CallLaunch {H} environment base.
Arguments CallMount {H} environment host_source target.
Arguments CallUnmountAll {H} environment.
Arguments CallStop {H} environment.

Record World (B H : Type) := mkWorld {
  fs : gmap string (Exception + stat_result);
  backend : B;
  calls : list (Call H);
}.

Arguments mkWorld {B H} fs backend calls.
Arguments fs {B H} w.
Arguments backend {B H} w.
Arguments calls {B H} w.

(** A Python call either returns a value or raises. *)
Definition Outcome (A : Type) : Type := Exception + A.

Definition M (B H A : Type) : Type := World B H → Outcome A * World B H.

Definition ret {B H A} (a : A) : M B H A := λ w, (inr a, w).

Definition raise {B H A} (e : Exception) : M B H A := λ w, (inl e, w).

Definition bind {B H A C} (m : M B H A) (k : A → M B H C) : M B H C :=
  λ w, match m w with
       | (inr a, w') => k a w'
       | (inl e, w') => (inl e, w')
       end.

Notation "'do' x <- m ; k" := (bind m (λ x, k))
  (at level 10, x name, m at level 100, k at level 200).
Notation "m ;; k" := (bind m (λ _, k))
  (at level 100, k at level 200, right associativity).

(** [try: body finally: final]: [final] runs on the world [body] leaves,
    however [body] ends; what [body] returned or raised then continues,
    unless [final] itself raises. *)
Definition try_finally {B H A} (body : M B H A) (final : M B H unit)
  : M B H A :=
  λ w, let '(r, w1) := body w in
       match final w1 with
       | (inr _, w2) => (r, w2)
       | (inl e, w2) => (inl e, w2)
       end.

Definition record_call {B H} (c : Call H) : M B H unit :=
  λ w, (inr tt, mkWorld (fs w) (backend w) (calls w ++ [c])%list).

(** Run an operation of the backend on the backend's state. *)
Definition on_backend {B H A} (op : B → Outcome A * B) : M B H A :=
  λ w, let '(r, b) := op (backend w) in (r, mkWorld (fs w) b (calls w)).

Definition logger_debug {B H} (message : string) : M B H unit :=
  record_call (CallLogDebug message).

(** [project_path.stat()] followed by the naming of the instance. *)
Definition get_instance_name_m {B H}
    (project_name project_path build_on build_for : string) : M B H string :=
  record_call (CallStat project_path) ;;
  λ w, (get_instance_name (fs w) project_name project_path build_on build_for, w).

(** ** The abstract methods, and [clean_project_environments] *)

(** What a concrete provider supplies: the abstract methods of [Provider]
    and the two operations of the [Executor] handle the module calls. [B]
    is the state of the backend. *)
Class Provider (B H : Type) := {
  is_provider_available : B → bool;
  create_environment : string → B → Outcome H * B;
  executor_exists : H → B → Outcome bool * B;
  executor_delete : H → B → Outcome unit * B;
}.

Section clean.
Context {B H : Type} `{!Provider B H}.

Definition call_is_provider_available : M B H bool :=
  record_call CallIsProviderAvailable ;;
  λ w, (inr (is_provider_available (backend w)), w).

Definition call_create_environment (instance_name : string) : M B H H :=
  record_call (CallCreateEnvironment instance_name) ;;
  on_backend (create_environment instance_name).

Definition call_exists (environment : H) : M B H bool :=
  record_call (CallExists environment) ;;
  on_backend (executor_exists environment).

Definition call_delete (environment : H) : M B H unit :=
  record_call (CallDelete environment) ;;
  on_backend (executor_delete environment).

Definition clean_project_environments
    (project_name project_path build_on build_for : string) : M B H unit :=
  do available <- call_is_provider_available;
  if negb available then
    logger_debug
      "Not cleaning environment because the provider is not installed."
  else
    do instance_name <-
      get_instance_name_m project_name project_path build_on build_for;
    logger_debug ("Cleaning environment " +:+ Py.repr instance_name) ;;
    do environment <- call_create_environment instance_name;
    do present <- call_exists environment;
    if present then call_delete environment else ret tt.

End clean.

Definition is_delete {H} (c : Call H) : bool :=
  match c with CallDelete _ => true | _ => false end.

Definition is_create_environment {H} (c : Call H) : bool :=
  match c with CallCreateEnvironment _ => true | _ => false end.

Definition count_calls {H} (p : Call H → bool) (l : list (Call H)) : nat :=
  List.length (filter (λ c, p c = true) l).

(** ** The contract of a backend, and a fake backend that keeps it *)

(** What the abstract methods promise, in the words of their docstrings:
    [create_environment] hands out a handle for the name and neither
    initialises, launches nor cleans anything; [exists] reports whether the
    backend has the instance; [delete] of an instance that is there removes
    it and leaves the provider installed. *)
Class LawfulProvider (B H : Type) `{!Provider B H} := {
  has_instance : string → B → bool;
  executor_name : H → string;
  create_environment_bare : ∀ n b,
    ∃ h, create_environment n b = (inr h, b) ∧ executor_name h = n;
  exists_reports : ∀ h b,
    executor_exists h b = (inr (has_instance (executor_name h) b), b);
  delete_removes : ∀ h b,
    has_instance (executor_name h) b = true →
    ∃ b', executor_delete h b = (inr tt, b')
          ∧ has_instance (executor_name h) b' = false
          ∧ is_provider_available b' = is_provider_available b;
}.

(** The life of one instance in the backend; an instance the backend does
    not have is absent from [instances]. *)
Inductive Status := Created | Launched | Stopped.

Record Instance := mkInstance {
  status : Status;
  mounts : list (string * string);
}.

Record FakeBackend := mkFake {
  installed : bool;
  instances : gmap string Instance;
}.

Module Fake.

Definition exists_ (n : string) (b : FakeBackend) : bool :=
  bool_decide (is_Some (instances b !! n)).

Definition delete (n : string) (b : FakeBackend) : FakeBackend :=
  mkFake (installed b) (base.delete n (instances b)).

Definition launch (n : string) (b : FakeBackend) : FakeBackend :=
  let kept := match instances b !! n with
              | Some i => mounts i
              | None => []
              end in
  mkFake (installed b) (<[n := mkInstance Launched kept]> (instances b)).

Definition mount (n host_source target : string) (b : FakeBackend)
  : FakeBackend :=
  mkFake (installed b)
    (alter (λ i, mkInstance (status i) (mounts i ++ [(host_source, target)])%list)
           n (instances b)).

Definition unmount_all (n : string) (b : FakeBackend) : FakeBackend :=
  mkFake (installed b)
    (alter (λ i, mkInstance (status i) []) n (instances b)).

Definition stopped (s : Status) : Status :=
  match s with
  | Launched => Stopped
  | s => s
  end.

Definition stop (n : string) (b : FakeBackend) : FakeBackend :=
  mkFake (installed b)
    (alter (λ i, mkInstance (stopped (status i)) (mounts i)) n (instances b)).

Definition status_of (n : string) (b : FakeBackend) : option Status :=
  status <$> instances b !! n.

Definition mounts_of (n : string) (b : FakeBackend)
  : option (list (string * string)) :=
  mounts <$> instances b !! n.

End Fake.

#[export] Instance fake_provider : Provider FakeBackend string := {
  is_provider_available b := installed b;
  create_environment n b := (inr n, b);
  executor_exists n b := (inr (Fake.exists_ n b), b);
  executor_delete n b := (inr tt, Fake.delete n b);
}.

(** ** The fake backend keeps the contract *)

Lemma fake_create_environment_bare (n : string) (b : FakeBackend) :
  ∃ h : string, create_environment n b = (inr h, b) ∧ h = n.
Proof. by exists n. Qed.

Lemma fake_exists_reports (h : string) (b : FakeBackend) :
  executor_exists h b = (inr (Fake.exists_ h b), b).
Proof. reflexivity. Qed.

Lemma fake_delete_removes (h : string) (b : FakeBackend) :
  Fake.exists_ h b = true →
  ∃ b', executor_delete h b = (inr tt, b')
        ∧ Fake.exists_ h b' = false
        ∧ is_provider_available b' = is_provider_available b.
Proof.
  intros _. exists (Fake.delete h b). split; [done|]. split; [|done].
  unfold Fake.exists_, Fake.delete. cbn [instances].
  rewrite lookup_delete_eq. apply bool_decide_eq_false_2. by intros [? [=]].
Qed.

#[export] Instance fake_lawful : LawfulProvider FakeBackend string := {|
  has_instance := Fake.exists_;
  executor_name := λ h, h;
  create_environment_bare := fake_create_environment_bare;
  exists_reports := fake_exists_reports;
  delete_removes := fake_delete_removes;
|}.

(** ** The scoped launch *)

Definition call_launch (environment base : string)
  : M FakeBackend string unit :=
  record_call (CallLaunch environment base) ;;
  on_backend (λ b, (inr tt, Fake.launch environment b)).

Definition call_mount (environment host_source target : string)
  : M FakeBackend string unit :=
  record_call (CallMount environment host_source target) ;;
  on_backend (λ b, (inr tt, Fake.mount environment host_source target b)).

Definition call_unmount_all (environment : string)
  : M FakeBackend string unit :=
  record_call (CallUnmountAll environment) ;;
  on_backend (λ b, (inr tt, Fake.unmount_all environment b)).

Definition call_stop (environment : string) : M FakeBackend string unit :=
  record_call (CallStop environment) ;;
  on_backend (λ b, (inr tt, Fake.stop environment b)).

(** Modelled from the spec: the body of [launched_environment], which
    [_provider.py] only declares (abstract, a docstring and no code); the
    backends that implement it are not part of this file.  On entry the
    instance name is resolved, the environment created and launched for the
    base, and the host's ssh directory mounted when [bind_ssh] is set; the
    handle is then given to the caller's block, and on every way out of the
    block everything is unmounted and the environment stopped.  The proxy
    arguments only feed the command environment and are left out. *)
Definition launched_environment {A : Type}
    (project_name project_path base : string) (bind_ssh : bool)
    (build_on build_for : string)
    (block : string → M FakeBackend string A) : M FakeBackend string A :=
  do instance_name <-
    get_instance_name_m project_name project_path build_on build_for;
  do environment <- call_create_environment instance_name;
  call_launch environment base ;;
  (if bind_ssh then call_mount environment "~/.ssh" "/root/.ssh" else ret tt) ;;
  try_finally (block environment)
    (call_unmount_all environment ;; call_stop environment).

(** The world in which the caller's block starts. *)
Definition world_at_entry (instance_name base : string) (bind_ssh : bool)
    (project_path : string) (w : World FakeBackend string)
  : World FakeBackend string :=
  let b := Fake.launch instance_name (backend w) in
  let b := if bind_ssh
           then Fake.mount instance_name "~/.ssh" "/root/.ssh" b else b in
  let cs := (calls w ++
             [CallStat project_path; CallCreateEnvironment instance_name;
              CallLaunch instance_name base] ++
             (if bind_ssh
              then [CallMount instance_name "~/.ssh" "/root/.ssh"] else []))%list in
  mkWorld (fs w) b cs.

(** ** The claim of the specification on the reason of [is_base_available]

    The specification's wording of the reason, with the base written as it
    is, to be compared with what [is_base_available] builds. *)
Definition spec_reason (base : string) : string :=
  "Base " +:+ base +:+
  " is not supported (must be 'ubuntu:18.04' or 'ubuntu:20.04')".

(** A string [repr] only wraps in single quotes: printable characters,
    none of them a quote or a backslash. *)
Fixpoint plain (s : string) : bool :=
  match s with
  | "" => true
  | String c s' =>
      Py.isprintable c && negb (Ascii.eqb c Py.squote)
      && negb (Ascii.eqb c Py.dquote) && negb (Ascii.eqb c Py.backslash)
      && plain s'
  end.

(** ** What a decimal numeral is

    The value in base ten of a string of the digits 0 to 9, read from the
    left; [None] for the empty string and for a string with another
    character.  It says what the last part of an instance name stands for. *)
Definition digit_value (c : ascii) : option N :=
  let n := N_of_ascii c in
  if (48 <=? n)%N && (n <=? 57)%N then Some (n - 48)%N else None.

Fixpoint decimal_value_from (acc : N) (s : string) : option N :=
  match s with
  | "" => Some acc
  | String c s' =>
      match digit_value c with
      | Some d => decimal_value_from (10 * acc + d) s'
      | None => None
      end
  end.

Definition decimal_value (s : string) : option N :=
  match s with
  | "" => None
  | _ => decimal_value_from 0 s
  end.

(** A numeral with no zero in front, unless it is the numeral 0 itself. *)
Definition canonical_numeral (s : string) : bool :=
  match s with
  | String c (String _ _) => negb (Ascii.eqb c "0")
  | _ => true
  end.

Definition dash : ascii := "-"%char.

(** ** A fake backend whose operations fail on demand

    It behaves as the fake backend, except that an operation with an
    exception in the script raises it and leaves the backend as it is. *)
Record Script := mkScript {
  create_fails : option Exception;
  exists_fails : option Exception;
  delete_fails : option Exception;
}.

Definition scripted_provider (script : Script)
  : Provider FakeBackend string := {|
  is_provider_available b := installed b;
  create_environment n b :=
    match create_fails script with
    | Some e => (inl e, b)
    | None => (inr n, b)
    end;
  executor_exists n b :=
    match exists_fails script with
    | Some e => (inl e, b)
    | None => (inr (Fake.exists_ n b), b)
    end;
  executor_delete n b :=
    match delete_fails script with
    | Some e => (inl e, b)
    | None => (inr tt, Fake.delete n b)
    end;
|}.

(** * Properties *)

(** ** The command environment *)

Section command_environment.
Implicit Types (default env : gmap string (option string)).
Implicit Types (environ : gmap string string).

(** One pass of the loop over the pass-through names, seen from one key. *)
Lemma lookup_pass_through environ env a k :
  pass_through environ env a !! k =
  if decide (a = k)
  then match environ !! k with
       | Some v => Some (Some v)
       | None => env !! k
       end
  else env !! k.
Proof.
  unfold pass_through. destruct (decide (a = k)) as [->|Hne].
  - destruct (environ !! k); [apply lookup_insert_eq | done].
  - destruct (environ !! a); [by rewrite lookup_insert_ne | done].
Qed.

(** The whole loop: a key of the list takes the host's value when the host
    has one; every other key keeps what it had. *)
Lemma lookup_foldl_pass_through environ keys env k :
  foldl (pass_through environ) env keys !! k =
  match environ !! k with
  | Some v => if decide (k ∈ keys) then Some (Some v) else env !! k
  | None => env !! k
  end.
Proof.
  revert env. induction keys as [|a keys IH]; intros env.
  - change (foldl _ env []) with env.
    destruct (environ !! k); [|done].
    case_decide as Hin; [by apply elem_of_nil in Hin | done].
  - change (foldl (pass_through environ) env (a :: keys))
      with (foldl (pass_through environ) (pass_through environ env a) keys).
    rewrite IH, lookup_pass_through.
    destruct (environ !! k) as [v|] eqn:Hk.
    + destruct (decide (k ∈ keys)) as [Hin|Hnin].
      * by rewrite decide_True by (by apply elem_of_cons; right).
      * destruct (decide (a = k)) as [->|Hne].
        -- by rewrite decide_True by (by apply elem_of_cons; left).
        -- rewrite decide_False; [done|].
           intros [->|Hin]%elem_of_cons; [by apply Hne | by apply Hnin].
    + by destruct (decide (a = k)).
Qed.

(** The environment as it stands before the explicit proxies are applied. *)
Lemma lookup_after_pass_through default environ k :
  foldl (pass_through environ)
        (<["SNAPCRAFT_MANAGED_MODE" := Some "1"]> default)
        passthrough_keys !! k =
  match environ !! k with
  | Some v =>
      if decide (k ∈ passthrough_keys) then Some (Some v)
      else <["SNAPCRAFT_MANAGED_MODE" := Some "1"]> default !! k
  | None => <["SNAPCRAFT_MANAGED_MODE" := Some "1"]> default !! k
  end.
Proof. apply lookup_foldl_pass_through. Qed.

Lemma truthy_nonempty v : v ≠ "" → Py.truthy (Some v) = true.
Proof. by destruct v. Qed.

End command_environment.

(** The marker is not one of the names passed through from the host. *)
Lemma managed_mode_not_passed : "SNAPCRAFT_MANAGED_MODE" ∉ passthrough_keys.
Proof. by apply (bool_decide_eq_false_1 _). Qed.

(** C4. Whatever the host environment holds, also a SNAPCRAFT_MANAGED_MODE
    of its own, and whatever proxies are passed, the environment returned by
    [get_command_environment] maps SNAPCRAFT_MANAGED_MODE to the string 1. *)
Theorem managed_mode_forced
    (default : gmap string (option string)) (environ : gmap string string)
    (http_proxy https_proxy : option string) :
  get_command_environment default environ http_proxy https_proxy
    !! "SNAPCRAFT_MANAGED_MODE" = Some (Some "1").
Proof.
  unfold get_command_environment.
  assert (foldl (pass_through environ)
            (<["SNAPCRAFT_MANAGED_MODE" := Some "1"]> default)
            passthrough_keys !! "SNAPCRAFT_MANAGED_MODE" = Some (Some "1"))
    as Hloop.
  { rewrite lookup_after_pass_through.
    destruct (environ !! _); [|apply lookup_insert_eq].
    case_decide as Hin; [|apply lookup_insert_eq].
    by apply managed_mode_not_passed in Hin. }
  destruct (Py.truthy http_proxy), (Py.truthy https_proxy);
    rewrite ?lookup_insert_ne by done; exact Hloop.
Qed.

(** C3, as the code has it. An explicit proxy argument that is not the empty
    string is the value of its variable in the returned environment,
    whatever the host environment says; the same for http_proxy and
    https_proxy. *)
Theorem explicit_proxy_wins
    (default : gmap string (option string)) (environ : gmap string string)
    (proxy : string) (other : option string) :
  proxy ≠ "" →
  get_command_environment default environ (Some proxy) other !! "http_proxy"
    = Some (Some proxy)
  ∧ get_command_environment default environ other (Some proxy) !! "https_proxy"
    = Some (Some proxy).
Proof.
  intros Hne. unfold get_command_environment.
  rewrite (truthy_nonempty proxy Hne). split.
  - destruct (Py.truthy other).
    + rewrite lookup_insert_ne by done. apply lookup_insert_eq.
    + apply lookup_insert_eq.
  - destruct (Py.truthy other); apply lookup_insert_eq.
Qed.

Lemma explicit_proxy_wins_witness :
  get_command_environment ∅ {[ "http_proxy" := "http://host" ]}
    (Some "http://a") None !! "http_proxy" = Some (Some "http://a")
  ∧ get_command_environment ∅ {[ "http_proxy" := "http://host" ]}
    None (Some "http://a") !! "https_proxy" = Some (Some "http://a").
Proof.
  apply (explicit_proxy_wins ∅ {[ "http_proxy" := "http://host" ]}
           "http://a" None); discriminate.
Defined.

(** C3, as stated, fails for the empty string: with http_proxy given as the
    empty string and a host http_proxy of http://host, the returned
    environment keeps the host's value. *)
Lemma explicit_empty_proxy_does_not_win :
  get_command_environment ∅ {[ "http_proxy" := "http://host" ]}
    (Some "") None !! "http_proxy" = Some (Some "http://host")
  ∧ get_command_environment ∅ {[ "http_proxy" := "http://host" ]}
    (Some "") None !! "http_proxy" ≠ Some (Some "").
Proof. split; [by vm_compute | by vm_compute]. Qed.

(** C8. With no explicit proxy, every name of the pass-through list (no_proxy
    among them) that the host defines has the host's value in the returned
    environment, and a name that neither the host nor the default
    environment defines is not a key of it. *)
Theorem host_value_passed_through
    (default : gmap string (option string)) (environ : gmap string string)
    (env_key : string) :
  env_key ∈ passthrough_keys →
  (∀ v, environ !! env_key = Some v →
        get_command_environment default environ None None !! env_key
        = Some (Some v))
  ∧ (environ !! env_key = None → default !! env_key = None →
     get_command_environment default environ None None !! env_key = None).
Proof.
  intros Hin. unfold get_command_environment, Py.truthy.
  rewrite lookup_after_pass_through. split.
  - intros v ->. by rewrite decide_True.
  - intros -> Hdefault. rewrite lookup_insert_ne; [done|].
    intros <-. by apply managed_mode_not_passed.
Qed.

Lemma host_value_passed_through_witness :
  get_command_environment ∅ {[ "no_proxy" := "foo" ]} None None !! "no_proxy"
    = Some (Some "foo")
  ∧ get_command_environment ∅ ∅ None None !! "no_proxy" = None.
Proof.
  split.
  - apply (host_value_passed_through ∅ {[ "no_proxy" := "foo" ]} "no_proxy");
      [by apply (bool_decide_unpack _) | reflexivity].
  - apply (host_value_passed_through ∅ ∅ "no_proxy");
      [by apply (bool_decide_unpack _) | reflexivity | reflexivity].
Defined.

(** C10. An http_proxy (or https_proxy) argument that is the empty string
    overrides nothing: the call returns the environment it returns without
    the argument, in which the variable has the host's value when the host
    defines it, and is not a key when neither the host nor the default
    environment defines it. *)
Theorem empty_proxy_is_no_override
    (default : gmap string (option string)) (environ : gmap string string)
    (other : option string) :
  let with_http := get_command_environment default environ (Some "") other in
  let with_https := get_command_environment default environ other (Some "") in
  with_http = get_command_environment default environ None other
  ∧ with_https = get_command_environment default environ other None
  ∧ (∀ v, environ !! "http_proxy" = Some v →
          with_http !! "http_proxy" = Some (Some v))
  ∧ (environ !! "http_proxy" = None → default !! "http_proxy" = None →
     with_http !! "http_proxy" = None)
  ∧ (∀ v, environ !! "https_proxy" = Some v →
          with_https !! "https_proxy" = Some (Some v))
  ∧ (environ !! "https_proxy" = None → default !! "https_proxy" = None →
     with_https !! "https_proxy" = None).
Proof.
  cbv zeta. unfold get_command_environment.
  change (Py.truthy (Some "")) with false. cbv iota.
  split; [done|]. split; [done|].
  assert (∀ k, k ∈ passthrough_keys →
    foldl (pass_through environ)
      (<["SNAPCRAFT_MANAGED_MODE" := Some "1"]> default) passthrough_keys !! k
    = match environ !! k with
      | Some v => Some (Some v)
      | None => default !! k
      end) as Hloop.
  { intros k Hk. rewrite lookup_after_pass_through.
    destruct (environ !! k); [by rewrite decide_True|].
    rewrite lookup_insert_ne; [done|].
    intros <-. by apply managed_mode_not_passed. }
  assert ("http_proxy" ∈ passthrough_keys) as Hhttp
    by (by apply (bool_decide_unpack _)).
  assert ("https_proxy" ∈ passthrough_keys) as Hhttps
    by (by apply (bool_decide_unpack _)).
  apply Hloop in Hhttp. apply Hloop in Hhttps.
  repeat split.
  - intros v Hv. rewrite Hv in Hhttp.
    destruct (Py.truthy other); [by rewrite lookup_insert_ne | done].
  - intros Hv Hd. rewrite Hv, Hd in Hhttp.
    destruct (Py.truthy other); [by rewrite lookup_insert_ne | done].
  - intros v Hv. rewrite Hv in Hhttps.
    destruct (Py.truthy other); [by rewrite lookup_insert_ne | done].
  - intros Hv Hd. rewrite Hv, Hd in Hhttps.
    destruct (Py.truthy other); [by rewrite lookup_insert_ne | done].
Qed.

Lemma empty_proxy_is_no_override_witness :
  get_command_environment ∅ {[ "http_proxy" := "http://host" ]} (Some "") None
    !! "http_proxy" = Some (Some "http://host")
  ∧ get_command_environment ∅ ∅ (Some "") None !! "http_proxy" = None.
Proof.
  split.
  - apply (empty_proxy_is_no_override ∅ {[ "http_proxy" := "http://host" ]}
             None). reflexivity.
  - apply (empty_proxy_is_no_override ∅ ∅ None); reflexivity.
Defined.

(** ** Strings *)

Lemma append_cons (c : ascii) (s t : string) :
  String c s +:+ t = String c (s +:+ t).
Proof. reflexivity. Qed.

Lemma append_nil_r (s : string) : s +:+ "" = s.
Proof. induction s as [|c s IH]; [done|]. by rewrite append_cons, IH. Qed.

Lemma append_assoc (s t u : string) : (s +:+ t) +:+ u = s +:+ t +:+ u.
Proof.
  induction s as [|c s IH]; [done|]. rewrite !append_cons. by rewrite IH.
Qed.

Lemma has_char_append (q : ascii) (s t : string) :
  Py.has_char q (s +:+ t) = Py.has_char q s || Py.has_char q t.
Proof.
  induction s as [|c s IH]; [done|]. rewrite append_cons. cbn.
  by destruct (Ascii.eqb c q).
Qed.

Lemma has_char_after (q : ascii) (s t : string) :
  Py.has_char q (s +:+ String q t) = true.
Proof.
  rewrite has_char_append. cbn. rewrite Ascii.eqb_refl.
  by destruct (Py.has_char q s).
Qed.

(** What follows the last occurrence of a character is determined by the
    whole string. *)
Lemma after_last_char (q : ascii) (s1 s2 d1 d2 : string) :
  Py.has_char q d1 = false → Py.has_char q d2 = false →
  s1 +:+ String q d1 = s2 +:+ String q d2 → s1 = s2 ∧ d1 = d2.
Proof.
  intros Hd1 Hd2. revert s2.
  induction s1 as [|c s1 IH]; intros [|c' s2]; rewrite ?append_cons.
  - intros [= ->]. done.
  - intros [= <- ->]. by rewrite has_char_after in Hd1.
  - intros [= -> <-]. by rewrite has_char_after in Hd2.
  - intros [= -> Heq]. apply IH in Heq as [-> ->]. done.
Qed.

(** ** Decimal numerals *)

Lemma decimal_value_from_append (acc : N) (s t : string) :
  decimal_value_from acc (s +:+ t) =
  decimal_value_from acc s ≫= λ a, decimal_value_from a t.
Proof.
  revert acc. induction s as [|c s IH]; intros acc; [done|].
  rewrite append_cons. cbn. destruct (digit_value c); [apply IH | done].
Qed.

Lemma digit_value_pretty (d : N) :
  (d < 10)%N → digit_value (pretty_N_char d) = Some d.
Proof.
  intros Hd.
  assert (d = 0 ∨ d = 1 ∨ d = 2 ∨ d = 3 ∨ d = 4 ∨ d = 5 ∨ d = 6 ∨ d = 7
          ∨ d = 8 ∨ d = 9)%N as Hcases by lia.
  repeat destruct Hcases as [->|Hcases]; try reflexivity.
  by subst.
Qed.

Lemma pretty_N_go_append (x : N) (s : string) :
  pretty_N_go x s = pretty_N_go x "" +:+ s.
Proof.
  revert s. induction (N.lt_wf_0 x) as [x _ IH]; intros s.
  destruct (decide (x = 0)%N) as [->|Hx]; [done|].
  assert (x `div` 10 < x)%N as Hlt by (apply N.div_lt; lia).
  rewrite !(pretty_N_go_step x) by lia.
  rewrite (IH _ Hlt (String _ s)), (IH _ Hlt (String _ "")).
  by rewrite append_assoc.
Qed.

Lemma decimal_value_from_pretty_go (x : N) :
  decimal_value_from 0 (pretty_N_go x "") = Some x.
Proof.
  induction (N.lt_wf_0 x) as [x _ IH].
  destruct (decide (x = 0)%N) as [->|Hx]; [done|].
  rewrite pretty_N_go_step, pretty_N_go_append by lia.
  rewrite decimal_value_from_append, IH by (apply N.div_lt; lia).
  cbn. rewrite digit_value_pretty by (apply N.mod_lt; lia).
  f_equal. rewrite (N.div_mod x 10) at 3 by lia. lia.
Qed.

(** [str] of an integer is a decimal numeral of that integer. *)
Lemma decimal_value_str_of_int (n : N) :
  decimal_value (Py.str_of_int n) = Some n.
Proof.
  unfold Py.str_of_int, pretty, pretty_N.
  destruct (decide (n = 0)%N) as [->|Hn]; [done|].
  pose proof (decimal_value_from_pretty_go n) as Hv.
  destruct (pretty_N_go n "") eqn:Hs; [|exact Hv].
  cbn in Hv. congruence.
Qed.

Lemma decimal_value_from_no_dash (acc : N) (s : string) :
  is_Some (decimal_value_from acc s) → Py.has_char dash s = false.
Proof.
  revert acc. induction s as [|c s IH]; intros acc; [done|]. cbn.
  destruct (digit_value c) eqn:Hc; [|by intros [? [=]]].
  intros Hs. apply IH in Hs. rewrite Hs.
  destruct (Ascii.eqb_spec c dash) as [->|]; [done | done].
Qed.

Lemma str_of_int_no_dash (n : N) : Py.has_char dash (Py.str_of_int n) = false.
Proof.
  pose proof (decimal_value_str_of_int n) as Hv. unfold decimal_value in Hv.
  destruct (Py.str_of_int n) eqn:Hs; [done|].
  apply (decimal_value_from_no_dash 0). by rewrite Hv.
Qed.

(** ** Instance names *)


(** [str] of an integer has no zero in front, unless the integer is 0. *)
Lemma pretty_N_go_head (x : N) (s : string) :
  (0 < x)%N →
  ∃ c rest, pretty_N_go x s = String c rest ∧ c ≠ "0"%char.
Proof.
  revert s. induction (N.lt_wf_0 x) as [x _ IH]; intros s Hx.
  rewrite pretty_N_go_step by done.
  destruct (decide (x `div` 10 = 0)%N) as [Hsmall|Hbig].
  - rewrite Hsmall, pretty_N_go_0. eexists _, _. split; [done|].
    apply N.div_small_iff in Hsmall; [|done].
    rewrite N.mod_small by done.
    assert (x = 1 ∨ x = 2 ∨ x = 3 ∨ x = 4 ∨ x = 5 ∨ x = 6 ∨ x = 7
            ∨ x = 8 ∨ x = 9)%N as Hcases by lia.
    repeat destruct Hcases as [->|Hcases]; try done. by subst.
  - apply IH; [apply N.div_lt; lia | by apply N.neq_0_lt_0].
Qed.

Lemma canonical_str_of_int (n : N) :
  canonical_numeral (Py.str_of_int n) = true.
Proof.
  unfold Py.str_of_int, pretty, pretty_N.
  destruct (decide (n = 0)%N) as [->|Hn]; [done|].
  destruct (pretty_N_go_head n "") as (c & rest & -> & Hc); [lia|].
  destruct rest; [done|]. cbn.
  destruct (Ascii.eqb_spec c "0"); [done | done].
Qed.

(** C6. When the inode of project_path can be read, [get_instance_name]
    returns the literal snapcraft, project_name, the literal on, build_on, the
    literal for, build_for and [str] of the inode, joined with a dash between
    consecutive parts; [str] of the inode is its decimal numeral: digits
    whose value in base ten is the inode, with no zero in front. *)
Theorem get_instance_name_joined (fs : gmap string (Exception + stat_result))
    (project_name project_path build_on build_for : string) (st : stat_result) :
  fs !! project_path = Some (inr st) →
  get_instance_name fs project_name project_path build_on build_for
  = inr ("snapcraft" +:+ "-" +:+ project_name +:+ "-" +:+ "on" +:+ "-"
         +:+ build_on +:+ "-" +:+ "for" +:+ "-" +:+ build_for +:+ "-"
         +:+ Py.str_of_int (st_ino st))
  ∧ decimal_value (Py.str_of_int (st_ino st)) = Some (st_ino st)
  ∧ canonical_numeral (Py.str_of_int (st_ino st)) = true.
Proof.
  intros Hst. split; [|split].
  - unfold get_instance_name, stat. by rewrite Hst.
  - apply decimal_value_str_of_int.
  - apply canonical_str_of_int.
Qed.

Lemma get_instance_name_joined_witness :
  get_instance_name {[ "/home/me/proj" := inr {| st_ino := 1234 |} ]}
    "hello" "/home/me/proj" "amd64" "arm64"
  = inr ("snapcraft" +:+ "-" +:+ "hello" +:+ "-" +:+ "on" +:+ "-"
         +:+ "amd64" +:+ "-" +:+ "for" +:+ "-" +:+ "arm64" +:+ "-"
         +:+ Py.str_of_int 1234)
  ∧ decimal_value (Py.str_of_int 1234) = Some 1234%N
  ∧ canonical_numeral (Py.str_of_int 1234) = true.
Proof.
  apply (get_instance_name_joined
           {[ "/home/me/proj" := inr {| st_ino := 1234 |} ]}
           "hello" "/home/me/proj" "amd64" "arm64" {| st_ino := 1234 |}).
  reflexivity.
Defined.



(** ** Supported bases *)

Lemma contains_supported (base : string) :
  Py.contains supported_bases base = true
  ↔ base = "ubuntu:18.04" ∨ base = "ubuntu:20.04".
Proof.
  unfold Py.contains, supported_bases.
  rewrite bool_decide_eq_true, !elem_of_cons, elem_of_nil. tauto.
Qed.

Lemma repr_char_plain (c : ascii) :
  Py.isprintable c && negb (Ascii.eqb c Py.squote)
  && negb (Ascii.eqb c Py.dquote) && negb (Ascii.eqb c Py.backslash) = true →
  Py.repr_char Py.squote c = String c "".
Proof.
  destruct c as [[] [] [] [] [] [] [] []]; vm_compute;
    first [reflexivity | discriminate].
Qed.

Lemma repr_body_plain (s : string) :
  plain s = true → Py.repr_body Py.squote s = s ∧ Py.has_char Py.squote s = false.
Proof.
  induction s as [|c s IH]; [done|]. cbn [plain Py.repr_body Py.has_char].
  intros [Hc Hs]%andb_true_iff. destruct (IH Hs) as [-> ->].
  rewrite (repr_char_plain c Hc). split; [done|].
  apply andb_true_iff in Hc as [[[_ Hq]%andb_true_iff _]%andb_true_iff _].
  by destruct (Ascii.eqb c Py.squote).
Qed.

(** [repr] of a plain string is the string between single quotes. *)
Lemma repr_plain (s : string) :
  plain s = true → Py.repr s = "'" +:+ s +:+ "'".
Proof.
  intros Hs. destruct (repr_body_plain s Hs) as [Hbody Hq].
  unfold Py.repr, Py.repr_quote. rewrite Hq. cbn [andb].
  rewrite Hbody. reflexivity.
Qed.

(** C5, as the code has it. [is_base_available] returns (true, none) exactly
    for ubuntu:18.04 and ubuntu:20.04. For every other base it returns false
    with a reason that is not empty: the word Base, the [repr] of the base,
    and the fixed text naming the two supported bases. The [repr] of a base
    made of printable characters other than quotes and the backslash is the
    base between single quotes, so the reason then names the base. *)
Theorem is_base_available_correct (base : string) :
  (is_base_available base = (true, None)
   ↔ base = "ubuntu:18.04" ∨ base = "ubuntu:20.04")
  ∧ (¬ (base = "ubuntu:18.04" ∨ base = "ubuntu:20.04") →
     ∃ reason : string,
       is_base_available base = (false, Some reason)
       ∧ reason = "Base " +:+ Py.repr base +:+
                  " is not supported (must be 'ubuntu:18.04' or 'ubuntu:20.04')"
       ∧ reason ≠ ""
       ∧ (plain base = true →
          reason = "Base '" +:+ base +:+
                   "' is not supported (must be 'ubuntu:18.04' or 'ubuntu:20.04')")).
Proof.
  pose proof (contains_supported base) as Hc. unfold is_base_available.
  destruct (Py.contains supported_bases base); cbn [negb]; split.
  - split; [intros _; by apply Hc | done].
  - intros Hn. destruct Hn. by apply Hc.
  - split; [done | intros Hb; by apply Hc in Hb].
  - intros _. eexists. split; [done|]. split; [done|]. split; [done|].
    intros Hp. rewrite (repr_plain base Hp), !append_assoc. reflexivity.
Qed.

Lemma is_base_available_correct_witness :
  ∃ reason : string,
    is_base_available "ubuntu:16.04" = (false, Some reason)
    ∧ reason = "Base " +:+ Py.repr "ubuntu:16.04" +:+
               " is not supported (must be 'ubuntu:18.04' or 'ubuntu:20.04')"
    ∧ reason ≠ ""
    ∧ (plain "ubuntu:16.04" = true →
       reason = "Base '" +:+ "ubuntu:16.04" +:+
                "' is not supported (must be 'ubuntu:18.04' or 'ubuntu:20.04')").
Proof.
  apply (is_base_available_correct "ubuntu:16.04").
  intros [?|?]; discriminate.
Defined.

(** C5, as stated, fails: for ubuntu:16.04 the reason is not the
    specification's text with the base written as it is; the code writes the
    base between quotes. *)
Lemma is_base_available_reason_is_quoted :
  is_base_available "ubuntu:16.04"
  = (false,
     Some "Base 'ubuntu:16.04' is not supported (must be 'ubuntu:18.04' or 'ubuntu:20.04')")
  ∧ is_base_available "ubuntu:16.04"
    ≠ (false, Some (spec_reason "ubuntu:16.04")).
Proof. split; [by vm_compute | by vm_compute]. Qed.

(** ** Cleaning *)

Lemma count_calls_app {H} (p : Call H → bool) (l1 l2 : list (Call H)) :
  count_calls p (l1 ++ l2)%list = count_calls p l1 + count_calls p l2.
Proof. unfold count_calls. by rewrite filter_app, length_app. Qed.

Section cleaning.
Context {B H : Type} `{!Provider B H}.
Implicit Types (w : World B H).

(** C1. On a provider whose [is_provider_available] answers false,
    [clean_project_environments] returns normally, whether project_path
    exists or not; all it does is ask for the availability and log one
    debug message: no [create_environment], no look at the file system for
    the instance name, nothing on a handle, and the backend is as it was. *)
Theorem clean_unavailable_is_noop
    (project_name project_path build_on build_for : string) w :
  is_provider_available (backend w) = false →
  ∃ w',
    clean_project_environments project_name project_path build_on build_for w
    = (inr tt, w')
    ∧ fs w' = fs w
    ∧ backend w' = backend w
    ∧ calls w' =
      (calls w ++
       [ CallIsProviderAvailable;
         CallLogDebug
           "Not cleaning environment because the provider is not installed." ])%list
    ∧ count_calls is_create_environment (calls w')
      = count_calls is_create_environment (calls w).
Proof.
  intros Hoff. eexists.
  unfold clean_project_environments, call_is_provider_available,
    logger_debug, bind, record_call.
  cbn [backend fs calls]. rewrite Hoff. cbn [negb backend fs calls].
  split; [reflexivity|]. cbn [backend fs calls].
  split; [done|]. split; [done|]. rewrite <-app_assoc.
  split; [done|]. rewrite !count_calls_app.
  change (count_calls is_create_environment [CallIsProviderAvailable])
    with 0.
  change (count_calls is_create_environment [CallLogDebug _]) with 0.
  lia.
Qed.

End cleaning.

Lemma clean_unavailable_is_noop_witness :
  ∃ w',
    clean_project_environments "hello" "/no/such/dir" "amd64" "arm64"
      (mkWorld ∅ (mkFake false ∅) [])
    = (inr tt, w')
    ∧ fs w' = ∅
    ∧ backend w' = mkFake false ∅
    ∧ calls w' =
      [ CallIsProviderAvailable;
        CallLogDebug
          "Not cleaning environment because the provider is not installed." ]
    ∧ count_calls is_create_environment (calls w') = 0.
Proof.
  apply (clean_unavailable_is_noop "hello" "/no/such/dir" "amd64" "arm64"
           (mkWorld ∅ (mkFake false ∅) [])).
  reflexivity.
Defined.

Section cleaning_twice.
Context {B H : Type} `{!Provider B H} `{!LawfulProvider B H}.
Implicit Types (w : World B H).

(** One run of [clean_project_environments] on an installed provider whose
    backend has the instance: the instance is deleted. *)
Lemma clean_present
    (project_name project_path build_on build_for instance_name : string) w :
  is_provider_available (backend w) = true →
  get_instance_name (fs w) project_name project_path build_on build_for
  = inr instance_name →
  has_instance instance_name (backend w) = true →
  ∃ h b',
    executor_name h = instance_name
    ∧ has_instance instance_name b' = false
    ∧ is_provider_available b' = true
    ∧ clean_project_environments project_name project_path build_on build_for w
      = (inr tt,
         mkWorld (fs w) b'
           (calls w ++
            [ CallIsProviderAvailable; CallStat project_path;
              CallLogDebug ("Cleaning environment " +:+ Py.repr instance_name);
              CallCreateEnvironment instance_name;
              CallExists h; CallDelete h ])%list).
Proof.
  intros Hon Hname Hhas.
  destruct (create_environment_bare instance_name (backend w))
    as (h & Hcreate & Hh).
  rewrite <-Hh in Hhas.
  destruct (delete_removes h (backend w) Hhas) as (b' & Hdel & Hgone & Hon').
  exists h, b'. split; [done|]. rewrite <-Hh at 1. split; [done|].
  split; [congruence|].
  unfold clean_project_environments, call_is_provider_available,
    get_instance_name_m, logger_debug, call_create_environment, call_exists,
    call_delete, bind, record_call, on_backend.
  cbn [backend fs calls]. rewrite Hon. cbn [negb backend fs calls].
  rewrite Hname. cbn [backend fs calls]. rewrite Hcreate.
  cbn [backend fs calls]. rewrite exists_reports, Hhas.
  cbn [backend fs calls]. rewrite Hdel.
  by rewrite <-!app_assoc.
Qed.

(** One run on an installed provider whose backend does not have the
    instance: [exists] answers false and nothing more is called. *)
Lemma clean_absent
    (project_name project_path build_on build_for instance_name : string) w :
  is_provider_available (backend w) = true →
  get_instance_name (fs w) project_name project_path build_on build_for
  = inr instance_name →
  has_instance instance_name (backend w) = false →
  ∃ h,
    executor_name h = instance_name
    ∧ executor_exists h (backend w) = (inr false, backend w)
    ∧ clean_project_environments project_name project_path build_on build_for w
      = (inr tt,
         mkWorld (fs w) (backend w)
           (calls w ++
            [ CallIsProviderAvailable; CallStat project_path;
              CallLogDebug ("Cleaning environment " +:+ Py.repr instance_name);
              CallCreateEnvironment instance_name;
              CallExists h ])%list).
Proof.
  intros Hon Hname Hhas.
  destruct (create_environment_bare instance_name (backend w))
    as (h & Hcreate & Hh).
  rewrite <-Hh in Hhas.
  exists h. split; [done|].
  split; [by rewrite exists_reports, Hhas|].
  unfold clean_project_environments, call_is_provider_available,
    get_instance_name_m, logger_debug, call_create_environment, call_exists,
    call_delete, bind, record_call, on_backend, ret.
  cbn [backend fs calls]. rewrite Hon. cbn [negb backend fs calls].
  rewrite Hname. cbn [backend fs calls]. rewrite Hcreate.
  cbn [backend fs calls]. rewrite exists_reports, Hhas.
  by rewrite <-!app_assoc.
Qed.

(** C2. On an installed provider whose backend keeps the contract and has
    the named instance, two calls of [clean_project_environments] in a row
    both return normally and make one [delete] between them: the first
    deletes, the second gets false from [exists] and calls nothing after
    it, leaving the backend as the first call left it. *)
Theorem clean_twice_deletes_once
    (project_name project_path build_on build_for instance_name : string) w :
  is_provider_available (backend w) = true →
  get_instance_name (fs w) project_name project_path build_on build_for
  = inr instance_name →
  has_instance instance_name (backend w) = true →
  ∃ w1 w2 h1 h2,
    clean_project_environments project_name project_path build_on build_for w
    = (inr tt, w1)
    ∧ clean_project_environments project_name project_path build_on build_for w1
      = (inr tt, w2)
    ∧ calls w1 =
      (calls w ++
       [ CallIsProviderAvailable; CallStat project_path;
         CallLogDebug ("Cleaning environment " +:+ Py.repr instance_name);
         CallCreateEnvironment instance_name;
         CallExists h1; CallDelete h1 ])%list
    ∧ calls w2 =
      (calls w1 ++
       [ CallIsProviderAvailable; CallStat project_path;
         CallLogDebug ("Cleaning environment " +:+ Py.repr instance_name);
         CallCreateEnvironment instance_name;
         CallExists h2 ])%list
    ∧ executor_exists h2 (backend w1) = (inr false, backend w1)
    ∧ backend w2 = backend w1
    ∧ count_calls is_delete (calls w2) = S (count_calls is_delete (calls w)).
Proof.
  intros Hon Hname Hhas.
  destruct (clean_present _ _ _ _ _ w Hon Hname Hhas)
    as (h1 & b1 & Hh1 & Hgone & Hon1 & Hrun1).
  set (w1 := mkWorld (fs w) b1
               (calls w ++
                [ CallIsProviderAvailable; CallStat project_path;
                  CallLogDebug ("Cleaning environment " +:+ Py.repr instance_name);
                  CallCreateEnvironment instance_name;
                  CallExists h1; CallDelete h1 ])%list) in *.
  destruct (clean_absent project_name project_path build_on build_for
              instance_name w1 Hon1 Hname Hgone)
    as (h2 & Hh2 & Hfalse & Hrun2).
  eexists w1, _, h1, h2.
  split; [exact Hrun1|]. split; [exact Hrun2|].
  split; [done|]. split; [done|]. split; [exact Hfalse|]. split; [done|].
  cbn [calls]. unfold w1. cbn [calls]. rewrite !count_calls_app.
  change (count_calls is_delete
            [ CallIsProviderAvailable; CallStat project_path;
              CallLogDebug ("Cleaning environment " +:+ Py.repr instance_name);
              CallCreateEnvironment instance_name;
              CallExists h1; CallDelete h1 ]) with 1.
  change (count_calls is_delete
            [ CallIsProviderAvailable; CallStat project_path;
              CallLogDebug ("Cleaning environment " +:+ Py.repr instance_name);
              CallCreateEnvironment instance_name;
              CallExists h2 ]) with 0.
  lia.
Qed.

End cleaning_twice.

Lemma clean_twice_deletes_once_witness :
  let w :=
    mkWorld {[ "/home/me/proj" := inr {| st_ino := 1234 |} ]}
      (mkFake true
         {[ "snapcraft-hello-on-amd64-for-arm64-1234" := mkInstance Stopped [] ]})
      [] in
  ∃ w1 w2 h1 h2,
    clean_project_environments "hello" "/home/me/proj" "amd64" "arm64" w
    = (inr tt, w1)
    ∧ clean_project_environments "hello" "/home/me/proj" "amd64" "arm64" w1
      = (inr tt, w2)
    ∧ calls w1 =
      [ CallIsProviderAvailable; CallStat "/home/me/proj";
        CallLogDebug "Cleaning environment 'snapcraft-hello-on-amd64-for-arm64-1234'";
        CallCreateEnvironment "snapcraft-hello-on-amd64-for-arm64-1234";
        CallExists h1; CallDelete h1 ]
    ∧ calls w2 =
      (calls w1 ++
       [ CallIsProviderAvailable; CallStat "/home/me/proj";
         CallLogDebug "Cleaning environment 'snapcraft-hello-on-amd64-for-arm64-1234'";
         CallCreateEnvironment "snapcraft-hello-on-amd64-for-arm64-1234";
         CallExists h2 ])%list
    ∧ executor_exists h2 (backend w1) = (inr false, backend w1)
    ∧ backend w2 = backend w1
    ∧ count_calls is_delete (calls w2) = 1.
Proof.
  intros w.
  apply (clean_twice_deletes_once "hello" "/home/me/proj" "amd64" "arm64"
           "snapcraft-hello-on-amd64-for-arm64-1234" w);
    vm_compute; reflexivity.
Defined.

(** ** The scoped launch *)

Lemma status_after_teardown (n : string) (b : FakeBackend) :
  Fake.status_of n (Fake.stop n (Fake.unmount_all n b)) ≠ Some Launched.
Proof.
  unfold Fake.status_of, Fake.stop, Fake.unmount_all. cbn [instances].
  rewrite !lookup_alter_eq.
  destruct (instances b !! n) as [[[] ms]|]; cbn; congruence.
Qed.

Lemma mounts_after_teardown (n : string) (b : FakeBackend) :
  default [] (Fake.mounts_of n (Fake.stop n (Fake.unmount_all n b))) = [].
Proof.
  unfold Fake.mounts_of, Fake.stop, Fake.unmount_all. cbn [instances].
  rewrite !lookup_alter_eq.
  by destruct (instances b !! n) as [[s ms]|].
Qed.

Lemma exists_after_teardown (n n' : string) (b : FakeBackend) :
  Fake.exists_ n' (Fake.stop n (Fake.unmount_all n b)) = Fake.exists_ n' b.
Proof.
  unfold Fake.exists_, Fake.stop, Fake.unmount_all. cbn [instances].
  apply bool_decide_ext. by rewrite !lookup_alter_is_Some.
Qed.

Lemma status_at_entry (n base : string) (bind_ssh : bool) (path : string)
    (w : World FakeBackend string) :
  Fake.status_of n (backend (world_at_entry n base bind_ssh path w))
  = Some Launched.
Proof.
  unfold world_at_entry, Fake.status_of. cbn [backend].
  destruct bind_ssh; unfold Fake.mount, Fake.launch; cbn [instances].
  - by rewrite lookup_alter_eq, lookup_insert_eq.
  - by rewrite lookup_insert_eq.
Qed.

(** C9. However the caller's block ends, by returning a value or by raising
    (an error of its own, or the [KeyboardInterrupt] or [GeneratorExit] of a
    cancellation), [launched_environment] ends the same way, after having
    called [unmount_all] and [stop] on the environment, in this order and
    after everything the block did. The environment, launched when the block
    started, is then not in the launched state and has no mounts; no
    [delete] is called, and the backend has the instances it had when the
    block ended. *)
Theorem launched_environment_teardown {A : Type}
    (project_name project_path base : string) (bind_ssh : bool)
    (build_on build_for instance_name : string)
    (block : string → M FakeBackend string A)
    (w w1 : World FakeBackend string) (r : Outcome A) :
  get_instance_name (fs w) project_name project_path build_on build_for
  = inr instance_name →
  block instance_name
    (world_at_entry instance_name base bind_ssh project_path w) = (r, w1) →
  Fake.status_of instance_name
    (backend (world_at_entry instance_name base bind_ssh project_path w))
  = Some Launched
  ∧ ∃ w2,
      launched_environment project_name project_path base bind_ssh
        build_on build_for block w = (r, w2)
      ∧ calls w2 =
        (calls w1 ++ [CallUnmountAll instance_name; CallStop instance_name])%list
      ∧ Fake.status_of instance_name (backend w2) ≠ Some Launched
      ∧ default [] (Fake.mounts_of instance_name (backend w2)) = []
      ∧ (∀ n, Fake.exists_ n (backend w2) = Fake.exists_ n (backend w1))
      ∧ fs w2 = fs w1.
Proof.
  intros Hname Hblock. split; [apply status_at_entry|].
  exists (mkWorld (fs w1)
            (Fake.stop instance_name (Fake.unmount_all instance_name (backend w1)))
            (calls w1 ++ [CallUnmountAll instance_name; CallStop instance_name])%list).
  cbn [calls backend fs].
  split; [|split; [done|]; split; [apply status_after_teardown|];
           split; [apply mounts_after_teardown|];
           split; [intros n; apply exists_after_teardown | done]].
  unfold launched_environment, get_instance_name_m, call_create_environment,
    call_launch, call_mount, call_unmount_all, call_stop, try_finally,
    bind, record_call, on_backend, ret.
  cbn [backend fs calls create_environment fake_provider].
  rewrite Hname. cbn [backend fs calls].
  revert Hblock. unfold world_at_entry.
  destruct bind_ssh; cbn [backend fs calls]; rewrite <-!app_assoc;
    cbn [app]; intros ->; cbn [backend fs calls];
    by rewrite <-!app_assoc.
Qed.

Lemma launched_environment_teardown_witness :
  let w :=
    mkWorld {[ "/home/me/proj" := inr {| st_ino := 1234 |} ]} (mkFake true ∅) [] in
  let n := "snapcraft-hello-on-amd64-for-arm64-1234" in
  let w1 := world_at_entry n "ubuntu:20.04" true "/home/me/proj" w in
  Fake.status_of n (backend w1) = Some Launched
  ∧ ∃ w2,
      launched_environment "hello" "/home/me/proj" "ubuntu:20.04" true
        "amd64" "arm64" (λ _, raise (A := unit) KeyboardInterrupt) w
      = (inl KeyboardInterrupt, w2)
      ∧ calls w2 = (calls w1 ++ [CallUnmountAll n; CallStop n])%list
      ∧ Fake.status_of n (backend w2) ≠ Some Launched
      ∧ default [] (Fake.mounts_of n (backend w2)) = []
      ∧ (∀ n', Fake.exists_ n' (backend w2) = Fake.exists_ n' (backend w1))
      ∧ fs w2 = fs w1.
Proof.
  intros w n w1.
  apply (launched_environment_teardown "hello" "/home/me/proj" "ubuntu:20.04"
           true "amd64" "arm64" n (λ _, raise KeyboardInterrupt) w w1
           (inl KeyboardInterrupt)); reflexivity.
Defined.

(** * Further properties of the code *)

(** ** The command environment, key by key *)

(** The loop over the pass-through names, with the membership test first. *)
Lemma lookup_after_pass_through_keys
    (default : gmap string (option string)) (environ : gmap string string)
    (k : string) :
  foldl (pass_through environ)
        (<["SNAPCRAFT_MANAGED_MODE" := Some "1"]> default)
        passthrough_keys !! k =
  if decide (k ∈ passthrough_keys)
  then match environ !! k with
       | Some v => Some (Some v)
       | None => default !! k
       end
  else <["SNAPCRAFT_MANAGED_MODE" := Some "1"]> default !! k.
Proof.
  rewrite lookup_after_pass_through.
  destruct (environ !! k) as [v|]; [done|]. case_decide as Hin; [|done].
  rewrite lookup_insert_ne; [done|]. intros <-.
  by apply managed_mode_not_passed.
Qed.

(** X1. Host variables outside the pass-through list never reach the
    returned environment: two host environments that agree on the seven
    names of the list give the same result. *)
Theorem host_variables_do_not_leak
    (default : gmap string (option string)) (environ1 environ2 : gmap string string)
    (http_proxy https_proxy : option string) :
  (∀ k, k ∈ passthrough_keys → environ1 !! k = environ2 !! k) →
  get_command_environment default environ1 http_proxy https_proxy
  = get_command_environment default environ2 http_proxy https_proxy.
Proof.
  intros Hagree. unfold get_command_environment.
  assert (foldl (pass_through environ1)
            (<["SNAPCRAFT_MANAGED_MODE" := Some "1"]> default) passthrough_keys
          = foldl (pass_through environ2)
              (<["SNAPCRAFT_MANAGED_MODE" := Some "1"]> default) passthrough_keys)
    as ->; [|done].
  apply map_eq. intros k. rewrite !lookup_after_pass_through_keys.
  case_decide as Hin; [|done]. by rewrite (Hagree k Hin).
Qed.

Lemma host_variables_do_not_leak_witness :
  get_command_environment {[ "PATH" := Some "/usr/bin" ]}
    {[ "HOME" := "/home/me" ]} None None
  = get_command_environment {[ "PATH" := Some "/usr/bin" ]}
      {[ "HOME" := "/root"; "LANG" := "C" ]} None None.
Proof.
  apply (host_variables_do_not_leak {[ "PATH" := Some "/usr/bin" ]}
           {[ "HOME" := "/home/me" ]} {[ "HOME" := "/root"; "LANG" := "C" ]}
           None None).
  intros k Hk. unfold passthrough_keys in Hk.
  repeat (apply elem_of_cons in Hk as [->|Hk]; [reflexivity|]).
  by apply elem_of_nil in Hk.
Defined.

(** X2. What the default environment holds is kept: a key other than the
    managed-mode marker keeps the default's entry, unless it is a
    pass-through name the host defines or a proxy given by a non-empty
    argument.  So the default wins over nothing but is never dropped. *)
Theorem default_entries_kept
    (default : gmap string (option string)) (environ : gmap string string)
    (http_proxy https_proxy : option string) (k : string) :
  k ≠ "SNAPCRAFT_MANAGED_MODE" →
  k ∉ passthrough_keys ∨ environ !! k = None →
  k ≠ "http_proxy" ∨ Py.truthy http_proxy = false →
  k ≠ "https_proxy" ∨ Py.truthy https_proxy = false →
  get_command_environment default environ http_proxy https_proxy !! k
  = default !! k.
Proof.
  intros Hmm Hhost Hhttp Hhttps. unfold get_command_environment.
  assert (foldl (pass_through environ)
            (<["SNAPCRAFT_MANAGED_MODE" := Some "1"]> default)
            passthrough_keys !! k = default !! k) as Hloop.
  { rewrite lookup_after_pass_through_keys. case_decide as Hin.
    - destruct Hhost as [Hout| ->]; [by destruct Hout | done].
    - by rewrite lookup_insert_ne. }
  destruct (Py.truthy https_proxy) eqn:Hs.
  - destruct Hhttps as [Hk|]; [|done]. rewrite lookup_insert_ne by done.
    destruct (Py.truthy http_proxy) eqn:Hp; [|done].
    destruct Hhttp as [Hk'|]; [|done]. by rewrite lookup_insert_ne.
  - destruct (Py.truthy http_proxy) eqn:Hp; [|done].
    destruct Hhttp as [Hk'|]; [|done]. by rewrite lookup_insert_ne.
Qed.

Lemma default_entries_kept_witness :
  get_command_environment
    {[ "PATH" := Some "/usr/bin"; "no_proxy" := Some "localhost" ]}
    {[ "PATH" := "/opt/bin"; "http_proxy" := "http://host" ]}
    (Some "http://a") None !! "PATH" = Some (Some "/usr/bin")
  ∧ get_command_environment
      {[ "PATH" := Some "/usr/bin"; "no_proxy" := Some "localhost" ]}
      {[ "PATH" := "/opt/bin"; "http_proxy" := "http://host" ]}
      (Some "http://a") None !! "no_proxy" = Some (Some "localhost").
Proof.
  split.
  - rewrite (default_entries_kept
               {[ "PATH" := Some "/usr/bin"; "no_proxy" := Some "localhost" ]}
               {[ "PATH" := "/opt/bin"; "http_proxy" := "http://host" ]}
               (Some "http://a") None "PATH"); [reflexivity | discriminate | ..].
    + left. by apply (bool_decide_eq_false_1 _).
    + left. discriminate.
    + left. discriminate.
  - rewrite (default_entries_kept
               {[ "PATH" := Some "/usr/bin"; "no_proxy" := Some "localhost" ]}
               {[ "PATH" := "/opt/bin"; "http_proxy" := "http://host" ]}
               (Some "http://a") None "no_proxy"); [reflexivity | discriminate | ..].
    + right. reflexivity.
    + left. discriminate.
    + left. discriminate.
Defined.

(** X3. A proxy argument changes its own variable only: apart from
    http_proxy (resp. https_proxy), the environment returned with an
    http_proxy (resp. https_proxy) argument is the one returned without. *)
Theorem proxy_argument_is_local
    (default : gmap string (option string)) (environ : gmap string string)
    (proxy other : option string) (k : string) :
  (k ≠ "http_proxy" →
   get_command_environment default environ proxy other !! k
   = get_command_environment default environ None other !! k)
  ∧ (k ≠ "https_proxy" →
     get_command_environment default environ other proxy !! k
     = get_command_environment default environ other None !! k).
Proof.
  unfold get_command_environment. change (Py.truthy None) with false.
  cbv iota. split; intros Hk.
  - destruct (Py.truthy proxy); [|done].
    destruct (Py.truthy other).
    + destruct (decide (k = "https_proxy")) as [->|Hk'].
      * by rewrite !lookup_insert_eq.
      * rewrite !(lookup_insert_ne _ "https_proxy") by done.
        by rewrite lookup_insert_ne.
    + by rewrite lookup_insert_ne.
  - destruct (Py.truthy proxy); [|done]. by rewrite lookup_insert_ne.
Qed.

Lemma proxy_argument_is_local_witness :
  get_command_environment ∅ {[ "no_proxy" := "foo" ]} (Some "http://a") None
    !! "no_proxy"
  = get_command_environment ∅ {[ "no_proxy" := "foo" ]} None None !! "no_proxy".
Proof.
  apply (proxy_argument_is_local ∅ {[ "no_proxy" := "foo" ]}
           (Some "http://a") None "no_proxy").
  discriminate.
Defined.

(** ** Instance names, read back *)

(** The name, with the parts added one at a time from the left. *)
Lemma instance_name_nested (fs : gmap string (Exception + stat_result))
    (project_name project_path build_on build_for : string) (st : stat_result) :
  fs !! project_path = Some (inr st) →
  get_instance_name fs project_name project_path build_on build_for
  = inr ((((("snapcraft-" +:+ project_name) +:+ String dash "on")
            +:+ String dash build_on) +:+ String dash "for")
          +:+ String dash build_for
          +:+ String dash (Py.str_of_int (st_ino st))).
Proof.
  intros Hst. unfold get_instance_name, stat. rewrite Hst. f_equal.
  unfold Py.join, concat. rewrite !append_assoc. reflexivity.
Qed.

(** X4. When build_on and build_for hold no dash (as architecture names do),
    the name tells its parts: two calls of [get_instance_name] that return
    the same name had the same project name, the same build_on and
    build_for, and paths with the same inode. The project name may hold
    dashes. *)
Theorem instance_name_determines_parts
    (fs1 fs2 : gmap string (Exception + stat_result))
    (project_name1 project_path1 build_on1 build_for1 : string)
    (project_name2 project_path2 build_on2 build_for2 : string)
    (st1 st2 : stat_result) :
  fs1 !! project_path1 = Some (inr st1) →
  fs2 !! project_path2 = Some (inr st2) →
  Py.has_char dash build_on1 = false → Py.has_char dash build_for1 = false →
  Py.has_char dash build_on2 = false → Py.has_char dash build_for2 = false →
  get_instance_name fs1 project_name1 project_path1 build_on1 build_for1
  = get_instance_name fs2 project_name2 project_path2 build_on2 build_for2 →
  project_name1 = project_name2 ∧ build_on1 = build_on2
  ∧ build_for1 = build_for2 ∧ st_ino st1 = st_ino st2.
Proof.
  intros H1 H2 Hbo1 Hbf1 Hbo2 Hbf2.
  rewrite (instance_name_nested _ _ _ _ _ _ H1).
  rewrite (instance_name_nested _ _ _ _ _ _ H2).
  intros [= Heq]. rewrite <-!(append_assoc _ (String dash _)) in Heq.
  apply after_last_char in Heq as [Heq Hino]; [|apply str_of_int_no_dash..].
  apply (inj pretty) in Hino.
  apply after_last_char in Heq as [Heq Hbf]; [|done..].
  apply after_last_char in Heq as [Heq _]; [|done..].
  apply after_last_char in Heq as [Heq Hbo]; [|done..].
  apply after_last_char in Heq as [Heq _]; [|done..].
  change (project_name1 = project_name2) in Heq.
  done.
Qed.

Lemma instance_name_determines_parts_witness :
  "my-snap" = "my-snap" ∧ "amd64" = "amd64" ∧ "arm64" = "arm64"
  ∧ 1234%N = 1234%N.
Proof.
  apply (instance_name_determines_parts
           {[ "/home/me/proj" := inr {| st_ino := 1234 |} ]}
           {[ "/srv/build" := inr {| st_ino := 1234 |} ]}
           "my-snap" "/home/me/proj" "amd64" "arm64"
           "my-snap" "/srv/build" "amd64" "arm64"
           {| st_ino := 1234 |} {| st_ino := 1234 |});
    vm_compute; reflexivity.
Defined.

(** X5. Without that condition names collide: a project name that holds
    -on- can be cut at two places, so for the same directory the project
    [a-on-b] built on [c] and the project [a] built on [b-on-c] get the same
    name, although the project names differ. *)
Theorem instance_name_collision (fs : gmap string (Exception + stat_result))
    (a b c project_path build_for : string) :
  get_instance_name fs (a +:+ "-on-" +:+ b) project_path c build_for
  = get_instance_name fs a project_path (b +:+ "-on-" +:+ c) build_for
  ∧ a +:+ "-on-" +:+ b ≠ a.
Proof.
  split.
  - unfold get_instance_name. destruct (stat fs project_path); [done|].
    f_equal. unfold Py.join, concat. rewrite !append_assoc. reflexivity.
  - rewrite <-(append_nil_r a) at 2. intros Heq.
    apply (inj (String.app a)) in Heq. discriminate.
Qed.

(** ** Cleaning: failures and bounds *)

Ltac run_clean :=
  unfold clean_project_environments, call_is_provider_available,
    get_instance_name_m, logger_debug, call_create_environment, call_exists,
    call_delete, bind, record_call, on_backend, ret;
  cbn [backend fs calls].

Section cleaning_failures.
Context {B H : Type} `{!Provider B H}.
Implicit Types (w : World B H).

(** X6. On an installed provider, when [stat()] of the project path
    raises, a missing path or any other file-system error,
    [clean_project_environments] raises that same exception; the backend
    is not asked for a handle and stays as it was. A path that does not
    exist gives [FileNotFoundError]. *)
Theorem clean_stat_failure_raises
    (project_name project_path build_on build_for : string)
    (e : Exception) w :
  is_provider_available (backend w) = true →
  stat (fs w) project_path = inl e →
  clean_project_environments project_name project_path build_on build_for w
  = (inl e,
     mkWorld (fs w) (backend w)
       (calls w ++ [CallIsProviderAvailable; CallStat project_path])%list)
  ∧ (fs w !! project_path = None → e = FileNotFoundError project_path).
Proof.
  intros Hon Hstat. split.
  - run_clean. rewrite Hon. cbn [negb backend fs calls].
    unfold get_instance_name. rewrite Hstat. by rewrite <-!app_assoc.
  - intros Hnone. unfold stat in Hstat. rewrite Hnone in Hstat. congruence.
Qed.

(** X7. Whatever the provider does, one call of
    [clean_project_environments] only adds to the record of calls, asks for
    at most one handle, deletes at most once, and leaves the file system
    alone. *)
Theorem clean_calls_bounded
    (project_name project_path build_on build_for : string) w :
  ∃ added,
    calls (clean_project_environments project_name project_path
             build_on build_for w).2 = (calls w ++ added)%list
    ∧ (count_calls is_create_environment added ≤ 1)%nat
    ∧ (count_calls is_delete added ≤ 1)%nat
    ∧ fs (clean_project_environments project_name project_path
            build_on build_for w).2 = fs w.
Proof.
  run_clean.
  destruct (is_provider_available (backend w)); cbn [negb backend fs calls].
  2: { eexists. rewrite <-!app_assoc. split; [reflexivity|].
       split; [|split; [|done]]; vm_compute; lia. }
  destruct (get_instance_name _ _ _ _ _) as [e|name]; cbn [backend fs calls].
  { eexists. rewrite <-!app_assoc. split; [reflexivity|].
    split; [|split; [|done]]; vm_compute; lia. }
  destruct (create_environment name (backend w)) as [[e|h] b1];
    cbn [backend fs calls].
  { eexists. rewrite <-!app_assoc. split; [reflexivity|].
    split; [|split; [|done]]; vm_compute; lia. }
  destruct (executor_exists h b1) as [[e|[]] b2]; cbn [backend fs calls].
  { eexists. rewrite <-!app_assoc. split; [reflexivity|].
    split; [|split; [|done]]; vm_compute; lia. }
  2: { eexists. rewrite <-!app_assoc. split; [reflexivity|].
       split; [|split; [|done]]; vm_compute; lia. }
  destruct (executor_delete h b2) as [[e|[]] b3]; cbn [backend fs calls snd];
    eexists; rewrite <-!app_assoc; (split; [reflexivity|]);
    (split; [|split; [|done]]); vm_compute; lia.
Qed.

(** X8. A failure of the backend is not swallowed: the exception raised by
    [create_environment], by [exists] or by [delete] is the exception
    [clean_project_environments] raises, and nothing is called after the
    operation that failed; in particular nothing is deleted when [exists]
    fails. *)
Theorem clean_backend_failure_propagates
    (project_name project_path build_on build_for instance_name : string)
    (e : Exception) (h : H) (b1 b2 b3 : B) w :
  is_provider_available (backend w) = true →
  get_instance_name (fs w) project_name project_path build_on build_for
  = inr instance_name →
  let before :=
    [ CallIsProviderAvailable; CallStat project_path;
      CallLogDebug ("Cleaning environment " +:+ Py.repr instance_name);
      CallCreateEnvironment instance_name ] in
  let run :=
    clean_project_environments project_name project_path build_on build_for w in
  (create_environment instance_name (backend w) = (inl e, b1) →
   run = (inl e, mkWorld (fs w) b1 (calls w ++ before)%list))
  ∧ (create_environment instance_name (backend w) = (inr h, b1) →
     executor_exists h b1 = (inl e, b2) →
     run = (inl e, mkWorld (fs w) b2 (calls w ++ before ++ [CallExists h])%list))
  ∧ (create_environment instance_name (backend w) = (inr h, b1) →
     executor_exists h b1 = (inr true, b2) →
     executor_delete h b2 = (inl e, b3) →
     run = (inl e,
            mkWorld (fs w) b3
              (calls w ++ before ++ [CallExists h; CallDelete h])%list)).
Proof.
  intros Hon Hname before run. unfold run, before. run_clean.
  rewrite Hon. cbn [negb backend fs calls]. rewrite Hname.
  cbn [backend fs calls]. repeat split.
  - intros ->. by rewrite <-!app_assoc.
  - intros ->. cbn [backend fs calls]. intros ->. by rewrite <-!app_assoc.
  - intros ->. cbn [backend fs calls]. intros ->. cbn [backend fs calls].
    intros ->. by rewrite <-!app_assoc.
Qed.

End cleaning_failures.

Lemma clean_stat_failure_raises_witness :
  clean_project_environments "hello" "/etc/passwd/proj" "amd64" "arm64"
    (mkWorld {[ "/etc/passwd/proj" := inl (NotADirectoryError "/etc/passwd/proj") ]}
       (mkFake true ∅) [])
  = (inl (NotADirectoryError "/etc/passwd/proj"),
     mkWorld {[ "/etc/passwd/proj" := inl (NotADirectoryError "/etc/passwd/proj") ]}
       (mkFake true ∅)
       [CallIsProviderAvailable; CallStat "/etc/passwd/proj"])
  ∧ clean_project_environments "hello" "/no/such/dir" "amd64" "arm64"
      (mkWorld ∅ (mkFake true ∅) [])
    = (inl (FileNotFoundError "/no/such/dir"),
       mkWorld ∅ (mkFake true ∅)
         [CallIsProviderAvailable; CallStat "/no/such/dir"]).
Proof.
  split.
  - refine (proj1 (clean_stat_failure_raises "hello" "/etc/passwd/proj"
             "amd64" "arm64" (NotADirectoryError "/etc/passwd/proj")
             (mkWorld
                {[ "/etc/passwd/proj" := inl (NotADirectoryError "/etc/passwd/proj") ]}
                (mkFake true ∅) []) _ _)); reflexivity.
  - refine (proj1 (clean_stat_failure_raises "hello" "/no/such/dir"
             "amd64" "arm64" (FileNotFoundError "/no/such/dir")
             (mkWorld ∅ (mkFake true ∅) []) _ _)); reflexivity.
Defined.

Lemma clean_backend_failure_propagates_witness :
  let w :=
    mkWorld {[ "/home/me/proj" := inr {| st_ino := 1234 |} ]}
      (mkFake true
         {[ "snapcraft-hello-on-amd64-for-arm64-1234" := mkInstance Stopped [] ]})
      [] in
  let n := "snapcraft-hello-on-amd64-for-arm64-1234" in
  let before :=
    [ CallIsProviderAvailable; CallStat "/home/me/proj";
      CallLogDebug ("Cleaning environment " +:+ Py.repr n);
      CallCreateEnvironment n ] in
  let boom := ProviderError "boom" in
  @clean_project_environments _ _
    (scripted_provider (mkScript (Some boom) None None))
    "hello" "/home/me/proj" "amd64" "arm64" w
  = (inl boom, mkWorld (fs w) (backend w) before)
  ∧ @clean_project_environments _ _
      (scripted_provider (mkScript None (Some boom) None))
      "hello" "/home/me/proj" "amd64" "arm64" w
    = (inl boom, mkWorld (fs w) (backend w) (before ++ [CallExists n])%list)
  ∧ @clean_project_environments _ _
      (scripted_provider (mkScript None None (Some boom)))
      "hello" "/home/me/proj" "amd64" "arm64" w
    = (inl boom,
       mkWorld (fs w) (backend w)
         (before ++ [CallExists n; CallDelete n])%list).
Proof.
  intros w n before boom. split; [|split].
  - apply (@clean_backend_failure_propagates _ _
             (scripted_provider (mkScript (Some boom) None None))
             "hello" "/home/me/proj" "amd64" "arm64" n boom n
             (backend w) (backend w) (backend w) w);
      vm_compute; reflexivity.
  - apply (@clean_backend_failure_propagates _ _
             (scripted_provider (mkScript None (Some boom) None))
             "hello" "/home/me/proj" "amd64" "arm64" n boom n
             (backend w) (backend w) (backend w) w);
      vm_compute; reflexivity.
  - apply (@clean_backend_failure_propagates _ _
             (scripted_provider (mkScript None None (Some boom)))
             "hello" "/home/me/proj" "amd64" "arm64" n boom n
             (backend w) (backend w) (backend w) w);
      vm_compute; reflexivity.
Defined.

Section cleaning_postcondition.
Context {B H : Type} `{!Provider B H} `{!LawfulProvider B H}.
Implicit Types (w : World B H).

(** X9. On an installed provider that keeps the contract,
    [clean_project_environments] returns normally whether the backend has
    the instance or not, and afterwards the backend does not have it; the
    file system is as it was. *)
Theorem clean_leaves_no_instance
    (project_name project_path build_on build_for instance_name : string) w :
  is_provider_available (backend w) = true →
  get_instance_name (fs w) project_name project_path build_on build_for
  = inr instance_name →
  ∃ w',
    clean_project_environments project_name project_path build_on build_for w
    = (inr tt, w')
    ∧ has_instance instance_name (backend w') = false
    ∧ is_provider_available (backend w') = true
    ∧ fs w' = fs w.
Proof.
  intros Hon Hname.
  destruct (has_instance instance_name (backend w)) eqn:Hhas.
  - destruct (clean_present _ _ _ _ _ w Hon Hname Hhas)
      as (h & b' & _ & Hgone & Hon' & ->).
    by eexists.
  - destruct (clean_absent _ _ _ _ _ w Hon Hname Hhas) as (h & _ & _ & ->).
    by eexists.
Qed.

End cleaning_postcondition.

Lemma clean_leaves_no_instance_witness :
  let w :=
    mkWorld {[ "/home/me/proj" := inr {| st_ino := 1234 |} ]}
      (mkFake true
         {[ "snapcraft-hello-on-amd64-for-arm64-1234" := mkInstance Launched [] ]})
      [] in
  ∃ w',
    clean_project_environments "hello" "/home/me/proj" "amd64" "arm64" w
    = (inr tt, w')
    ∧ has_instance "snapcraft-hello-on-amd64-for-arm64-1234" (backend w') = false
    ∧ is_provider_available (backend w') = true
    ∧ fs w' = fs w.
Proof.
  intros w.
  apply (clean_leaves_no_instance "hello" "/home/me/proj" "amd64" "arm64"
           "snapcraft-hello-on-amd64-for-arm64-1234" w);
    vm_compute; reflexivity.
Defined.

(** ** The reason names the base *)

Lemma length_append (s t : string) :
  String.length (s +:+ t) = String.length s + String.length t.
Proof.
  induction s as [|c s IH]; [done|]. rewrite append_cons. cbn. by rewrite IH.
Qed.

Lemma append_inj_l (s1 s2 t : string) : s1 +:+ t = s2 +:+ t → s1 = s2.
Proof.
  revert s2. induction s1 as [|c s1 IH]; intros [|c' s2] Heq.
  - done.
  - apply (f_equal String.length) in Heq.
    rewrite !length_append in Heq. cbn [String.length] in Heq. lia.
  - apply (f_equal String.length) in Heq.
    rewrite !length_append in Heq. cbn [String.length] in Heq. lia.
  - rewrite !append_cons in Heq. injection Heq as -> Heq.
    by rewrite (IH s2 Heq).
Qed.

(** Of two strings that start a common string, one starts the other. *)
Lemma append_prefix (x y r1 r2 : string) :
  x +:+ r1 = y +:+ r2 → String.prefix x y = true ∨ String.prefix y x = true.
Proof.
  revert y. induction x as [|a x IH]; intros [|b y]; cbn; auto.
  rewrite !append_cons. intros [= -> Heq].
  destruct (ascii_dec b b) as [_|Hne]; [by apply IH | done].
Qed.

Lemma ascii_enumerated (P : ascii → Prop) :
  (∀ n, n < 256 → P (ascii_of_nat n)) → ∀ c, P c.
Proof.
  intros HP c. rewrite <-(ascii_nat_embedding c). apply HP.
  apply nat_ascii_bounded.
Qed.

(** The escapes of two different characters: neither starts the other. *)
Lemma repr_char_prefix_free (q c1 c2 : ascii) :
  q = Py.squote ∨ q = Py.dquote →
  String.prefix (Py.repr_char q c1) (Py.repr_char q c2) = true → c1 = c2.
Proof.
  intros Hq.
  assert (forallb (λ q,
            forallb (λ n1,
              forallb (λ n2,
                implb (String.prefix (Py.repr_char q (ascii_of_nat n1))
                                     (Py.repr_char q (ascii_of_nat n2)))
                      (Nat.eqb n1 n2))
                (seq 0 256)) (seq 0 256)) [Py.squote; Py.dquote] = true)
    as Hcheck by (vm_compute; reflexivity).
  rewrite forallb_forall in Hcheck.
  assert (In q [Py.squote; Py.dquote]) as Hin
    by (destruct Hq as [->| ->]; cbn; auto).
  specialize (Hcheck q Hin). rewrite forallb_forall in Hcheck.
  revert c1 c2. apply (ascii_enumerated (λ c1, ∀ c2, _ → c1 = c2)).
  intros n1 Hn1.
  apply (ascii_enumerated
           (λ c2, String.prefix (Py.repr_char q (ascii_of_nat n1))
                    (Py.repr_char q c2) = true → ascii_of_nat n1 = c2)).
  intros n2 Hn2 Hpre.
  specialize (Hcheck n1 ltac:(apply in_seq; lia)).
  rewrite forallb_forall in Hcheck.
  specialize (Hcheck n2 ltac:(apply in_seq; lia)).
  rewrite Hpre in Hcheck. cbn in Hcheck.
  apply Nat.eqb_eq in Hcheck. by subst.
Qed.

(** An escape never starts with the bare quote. *)
Lemma repr_char_head (q c : ascii) :
  q = Py.squote ∨ q = Py.dquote →
  ∃ a rest, Py.repr_char q c = String a rest ∧ a ≠ q.
Proof.
  intros Hq. revert c. apply ascii_enumerated. intros n Hn.
  assert (forallb (λ q,
            forallb (λ n,
              match Py.repr_char q (ascii_of_nat n) with
              | String a _ => negb (Ascii.eqb a q)
              | "" => false
              end) (seq 0 256)) [Py.squote; Py.dquote] = true)
    as Hcheck by (vm_compute; reflexivity).
  rewrite forallb_forall in Hcheck.
  assert (In q [Py.squote; Py.dquote]) as Hin
    by (destruct Hq as [->| ->]; cbn; auto).
  specialize (Hcheck q Hin). rewrite forallb_forall in Hcheck.
  specialize (Hcheck n ltac:(apply in_seq; lia)).
  destruct (Py.repr_char q (ascii_of_nat n)) as [|a rest]; [done|].
  exists a, rest. split; [done|]. intros ->.
  by rewrite Ascii.eqb_refl in Hcheck.
Qed.

Lemma repr_body_inj (q : ascii) (s1 s2 : string) :
  q = Py.squote ∨ q = Py.dquote →
  Py.repr_body q s1 +:+ String q "" = Py.repr_body q s2 +:+ String q "" →
  s1 = s2.
Proof.
  intros Hq. revert s2.
  induction s1 as [|c1 s1 IH]; intros [|c2 s2]; cbn [Py.repr_body].
  - done.
  - rewrite append_assoc.
    destruct (repr_char_head q c2 Hq) as (a & rest & -> & Ha).
    rewrite append_cons. intros [= Heq _]. by destruct Ha.
  - rewrite append_assoc.
    destruct (repr_char_head q c1 Hq) as (a & rest & -> & Ha).
    rewrite append_cons. intros [= Heq _]. by destruct Ha.
  - rewrite !append_assoc. intros Heq.
    assert (c1 = c2) as ->.
    { destruct (append_prefix _ _ _ _ Heq) as [Hpre|Hpre].
      - by apply (repr_char_prefix_free q).
      - symmetry. by apply (repr_char_prefix_free q). }
    apply (inj (String.app _)) in Heq. by rewrite (IH s2 Heq).
Qed.

(** [repr] tells strings apart. *)
Lemma repr_inj (s1 s2 : string) : Py.repr s1 = Py.repr s2 → s1 = s2.
Proof.
  unfold Py.repr. intros [= Hq Hbody]. rewrite <-Hq in Hbody.
  apply (repr_body_inj (Py.repr_quote s1)); [|done].
  unfold Py.repr_quote. destruct (_ && _); auto.
Qed.

(** X10. The reason names the base without ambiguity: a base that is not
    supported gets an answer that no other base gets. *)
Theorem is_base_available_reason_tells_base (base1 base2 : string) :
  ¬ (base1 = "ubuntu:18.04" ∨ base1 = "ubuntu:20.04") →
  is_base_available base1 = is_base_available base2 → base1 = base2.
Proof.
  intros Hn. unfold is_base_available.
  destruct (Py.contains supported_bases base1) eqn:H1.
  { apply contains_supported in H1. by destruct Hn. }
  destruct (Py.contains supported_bases base2); cbn [negb]; [done|].
  intros Heq. apply (f_equal snd) in Heq. cbn [snd] in Heq.
  apply (inj Some) in Heq. apply (inj (String.app "Base ")) in Heq.
  apply append_inj_l in Heq. by apply repr_inj.
Qed.

Lemma is_base_available_reason_tells_base_witness :
  "ubuntu:16.04" = "ubuntu:16.04".
Proof.
  apply (is_base_available_reason_tells_base "ubuntu:16.04" "ubuntu:16.04");
    [intros [?|?]; discriminate | reflexivity].
Defined.

(** ** Cleaning: what is deleted *)

Section cleaning_deletes.
Context {B H : Type} `{!Provider B H}.
Implicit Types (w : World B H).

(** X11. Whatever the provider does, [clean_project_environments] calls
    [delete] only on the handle that [create_environment] returned for the
    name of this project's instance, and only after [exists] on that handle
    answered true. *)
Theorem clean_deletes_only_checked_handle
    (project_name project_path build_on build_for : string) w :
  ∃ added,
    calls (clean_project_environments project_name project_path
             build_on build_for w).2 = (calls w ++ added)%list
    ∧ ∀ h, CallDelete h ∈ added →
        ∃ instance_name b1 b2,
          get_instance_name (fs w) project_name project_path build_on build_for
          = inr instance_name
          ∧ create_environment instance_name (backend w) = (inr h, b1)
          ∧ executor_exists h b1 = (inr true, b2).
Proof.
  run_clean.
  destruct (is_provider_available (backend w)); cbn [negb backend fs calls].
  2: { eexists. rewrite <-!app_assoc. split; [reflexivity|]. intros h Hin.
       repeat (apply elem_of_cons in Hin as [Hin|Hin]; [discriminate|]).
       by apply elem_of_nil in Hin. }
  destruct (get_instance_name _ _ _ _ _) as [e|name]; cbn [backend fs calls].
  { eexists. rewrite <-!app_assoc. split; [reflexivity|]. intros h Hin.
    repeat (apply elem_of_cons in Hin as [Hin|Hin]; [discriminate|]).
    by apply elem_of_nil in Hin. }
  destruct (create_environment name (backend w)) as [[e|h] b1] eqn:Hcreate;
    cbn [backend fs calls].
  { eexists. rewrite <-!app_assoc. split; [reflexivity|]. intros h Hin.
    repeat (apply elem_of_cons in Hin as [Hin|Hin]; [discriminate|]).
    by apply elem_of_nil in Hin. }
  destruct (executor_exists h b1) as [[e|[]] b2] eqn:Hexists;
    cbn [backend fs calls].
  { eexists. rewrite <-!app_assoc. split; [reflexivity|]. intros h' Hin.
    repeat (apply elem_of_cons in Hin as [Hin|Hin]; [discriminate|]).
    by apply elem_of_nil in Hin. }
  2: { eexists. rewrite <-!app_assoc. split; [reflexivity|]. intros h' Hin.
       repeat (apply elem_of_cons in Hin as [Hin|Hin]; [discriminate|]).
       by apply elem_of_nil in Hin. }
  destruct (executor_delete h b2) as [[e|[]] b3]; cbn [backend fs calls snd];
    eexists; rewrite <-!app_assoc; (split; [reflexivity|]); intros h' Hin;
    repeat (apply elem_of_cons in Hin as [Hin|Hin];
            [first [discriminate | injection Hin as ->; by exists name, b1, b2]|]);
    by apply elem_of_nil in Hin.
Qed.

End cleaning_deletes.

Lemma clean_deletes_only_checked_handle_witness :
  let w :=
    mkWorld {[ "/home/me/proj" := inr {| st_ino := 1234 |} ]}
      (mkFake true
         {[ "snapcraft-hello-on-amd64-for-arm64-1234" := mkInstance Stopped [] ]})
      [] in
  ∃ added,
    calls (clean_project_environments "hello" "/home/me/proj"
             "amd64" "arm64" w).2 = (calls w ++ added)%list
    ∧ ∀ h, CallDelete h ∈ added →
        ∃ instance_name b1 b2,
          get_instance_name (fs w) "hello" "/home/me/proj" "amd64" "arm64"
          = inr instance_name
          ∧ create_environment instance_name (backend w) = (inr h, b1)
          ∧ executor_exists h b1 = (inr true, b2).
Proof.
  intros w.
  apply (clean_deletes_only_checked_handle "hello" "/home/me/proj"
           "amd64" "arm64" w).
Defined.
